(** * cimgui_impl_metal.h: the C binding surface of the ImGui Metal backend

    The repository file is a header: five typedefs and six prototypes wrapped
    in a conditional [extern "C"] block.  The development embeds the header
    line by line, elaborates it the way a C or a C++ translation unit sees
    it, and proves the interface facts on the elaborated declarations.
    Behaviour that lives in the implementation file and in the wrapped
    library (neither is part of the header) is modelled from the
    specification and marked as such. *)

From Stdlib Require Import String List Bool Arith ZArith Lia.
Import ListNotations.
Local Open Scope string_scope.
Local Open Scope list_scope.

(** ** C declaration syntax, as far as the header uses it *)

Inductive ctype : Type :=
| Tvoid
| Tbool
| Tint
| Tchar
| Tptr (pointee : ctype)
| Tnamed (name : string).

Record param : Type := mkParam { param_type : ctype; param_name : string }.

Inductive decl : Type :=
| Typedef (aliased : ctype) (name : string)
| Function (ret : ctype) (name : string) (params : list param).

Inductive line : Type :=
| Comment (text : string)
| PragmaOnce
| Ifdef (macro : string)
| Endif
| ExternC_open
| Close_brace
| Include (file : string)
| Decl (d : decl).

(** The header, in source order.  A prototype written [f(void)] has the
    empty parameter list. *)
Definition cimgui_impl_metal_h : list line :=
  [ Comment "C bindings for imgui_impl_metal.mm";
    Comment "This provides C-callable functions that can be used from Zig";
    PragmaOnce;
    Ifdef "__cplusplus";
    ExternC_open;
    Endif;
    Include "stdbool.h";
    Comment "Forward declarations (opaque pointers for Zig compatibility)";
    Decl (Typedef (Tptr Tvoid) "cImGui_MTLDevice");
    Decl (Typedef (Tptr Tvoid) "cImGui_MTLCommandBuffer");
    Decl (Typedef (Tptr Tvoid) "cImGui_MTLRenderCommandEncoder");
    Decl (Typedef (Tptr Tvoid) "cImGui_MTLRenderPassDescriptor");
    Decl (Typedef (Tptr Tvoid) "cImGui_ImDrawData");
    Comment "Initialize the Metal backend with a device";
    Decl (Function Tbool "cImGui_ImplMetal_Init"
            [mkParam (Tnamed "cImGui_MTLDevice") "device"]);
    Comment "Shutdown the Metal backend";
    Decl (Function Tvoid "cImGui_ImplMetal_Shutdown" []);
    Comment "Call at the start of a new frame, before ImGui::NewFrame()";
    Comment "Pass the render pass descriptor that will be used for rendering";
    Decl (Function Tvoid "cImGui_ImplMetal_NewFrame"
            [mkParam (Tnamed "cImGui_MTLRenderPassDescriptor") "renderPassDescriptor"]);
    Comment "Render ImGui draw data using Metal";
    Comment "Call after ImGui::Render() to get the draw data";
    Decl (Function Tvoid "cImGui_ImplMetal_RenderDrawData"
            [mkParam (Tnamed "cImGui_ImDrawData") "drawData";
             mkParam (Tnamed "cImGui_MTLCommandBuffer") "commandBuffer";
             mkParam (Tnamed "cImGui_MTLRenderCommandEncoder") "commandEncoder"]);
    Comment "Create device objects (called automatically by Init, but can be called manually)";
    Decl (Function Tbool "cImGui_ImplMetal_CreateDeviceObjects"
            [mkParam (Tnamed "cImGui_MTLDevice") "device"]);
    Comment "Destroy device objects (called automatically by Shutdown)";
    Decl (Function Tvoid "cImGui_ImplMetal_DestroyDeviceObjects" []);
    Ifdef "__cplusplus";
    Close_brace;
    Endif ].

(** ** Elaboration: what a translation unit that includes the header sees *)

Inductive linkage : Type := LinkC | LinkCxx.

(** The language of the including translation unit decides which macros
    are defined and which linkage a declaration gets by default. *)
Definition defined (cplusplus : bool) (macro : string) : bool :=
  cplusplus && String.eqb macro "__cplusplus".

Definition default_linkage (cplusplus : bool) : linkage :=
  if cplusplus then LinkCxx else LinkC.

(** [skip] counts the enclosing [#ifdef]s whose macro is undefined (0: the
    line is live); [blocks] is the stack of open linkage blocks. *)
Fixpoint elaborate_from (cplusplus : bool) (skip : nat) (blocks : list linkage)
         (ls : list line) : list (linkage * decl) :=
  match ls with
  | [] => []
  | l :: rest =>
      match l with
      | Ifdef m =>
          match skip with
          | O => if defined cplusplus m
                 then elaborate_from cplusplus 0 blocks rest
                 else elaborate_from cplusplus 1 blocks rest
          | S _ => elaborate_from cplusplus (S skip) blocks rest
          end
      | Endif => elaborate_from cplusplus (Nat.pred skip) blocks rest
      | ExternC_open =>
          match skip with
          | O => elaborate_from cplusplus 0 (LinkC :: blocks) rest
          | S _ => elaborate_from cplusplus skip blocks rest
          end
      | Close_brace =>
          match skip with
          | O => elaborate_from cplusplus 0 (tl blocks) rest
          | S _ => elaborate_from cplusplus skip blocks rest
          end
      | Decl d =>
          match skip with
          | O => (hd (default_linkage cplusplus) blocks, d)
                   :: elaborate_from cplusplus 0 blocks rest
          | S _ => elaborate_from cplusplus skip blocks rest
          end
      | Comment _ | PragmaOnce | Include _ =>
          elaborate_from cplusplus skip blocks rest
      end
  end.

Definition elaborate (cplusplus : bool) (ls : list line) : list (linkage * decl) :=
  elaborate_from cplusplus 0 [] ls.

(** The declarations of the header, whichever language includes it. *)
Definition declarations (ls : list line) : list decl :=
  map snd (elaborate false ls).

(** ** The interface: typedefs and function signatures *)

Record signature : Type := mkSig
  { sig_name : string; sig_ret : ctype; sig_params : list ctype }.

Fixpoint typedefs_of (ds : list decl) : list (string * ctype) :=
  match ds with
  | [] => []
  | Typedef t n :: rest => (n, t) :: typedefs_of rest
  | Function _ _ _ :: rest => typedefs_of rest
  end.

Fixpoint functions_of (ds : list decl) : list signature :=
  match ds with
  | [] => []
  | Typedef _ _ :: rest => functions_of rest
  | Function r n ps :: rest => mkSig n r (map param_type ps) :: functions_of rest
  end.

Definition typedefs : list (string * ctype) := typedefs_of (declarations cimgui_impl_metal_h).
Definition functions : list signature := functions_of (declarations cimgui_impl_metal_h).

Definition typedef_names (ds : list decl) : list string := map fst (typedefs_of ds).
Definition function_names (ds : list decl) : list string := map sig_name (functions_of ds).

(** The compatibility surface of a header: its typedefs and its function
    signatures (parameter names are not part of a C function's type), each
    with the linkage it is declared with. *)
Record surface : Type := mkSurface
  { sf_typedefs : list (string * ctype);
    sf_functions : list signature;
    sf_linkage : list linkage }.

Definition surface_of (cplusplus : bool) (ls : list line) : surface :=
  let ds := elaborate cplusplus ls in
  mkSurface (typedefs_of (map snd ds)) (functions_of (map snd ds)) (map fst ds).

Definition ctype_eq_dec (a b : ctype) : {a = b} + {a <> b}.
Proof. decide equality. apply string_dec. Defined.

Definition signature_eq_dec (a b : signature) : {a = b} + {a <> b}.
Proof.
  decide equality.
  - apply (list_eq_dec ctype_eq_dec).
  - apply ctype_eq_dec.
  - apply string_dec.
Defined.

Definition linkage_eq_dec (a b : linkage) : {a = b} + {a <> b}.
Proof. decide equality. Defined.

Definition typedef_eq_dec (a b : string * ctype) : {a = b} + {a <> b}.
Proof. decide equality. - apply ctype_eq_dec. - apply string_dec. Defined.

Definition surface_eq_dec (a b : surface) : {a = b} + {a <> b}.
Proof.
  decide equality.
  - apply (list_eq_dec linkage_eq_dec).
  - apply (list_eq_dec signature_eq_dec).
  - apply (list_eq_dec typedef_eq_dec).
Defined.

(** A reimplementation of the binding conforms when a translation unit of
    either language sees the surface this header gives it. *)
Definition conforming (reimpl : list line) : bool :=
  (if surface_eq_dec (surface_of false reimpl) (surface_of false cimgui_impl_metal_h)
   then true else false)
  &&
  (if surface_eq_dec (surface_of true reimpl) (surface_of true cimgui_impl_metal_h)
   then true else false).

Definition handle_typedef_names : list string :=
  [ "cImGui_MTLDevice"; "cImGui_MTLCommandBuffer"; "cImGui_MTLRenderCommandEncoder";
    "cImGui_MTLRenderPassDescriptor"; "cImGui_ImDrawData" ].

Definition interface_functions : list signature :=
  [ mkSig "cImGui_ImplMetal_Init" Tbool [Tnamed "cImGui_MTLDevice"];
    mkSig "cImGui_ImplMetal_Shutdown" Tvoid [];
    mkSig "cImGui_ImplMetal_NewFrame" Tvoid [Tnamed "cImGui_MTLRenderPassDescriptor"];
    mkSig "cImGui_ImplMetal_RenderDrawData" Tvoid
      [Tnamed "cImGui_ImDrawData"; Tnamed "cImGui_MTLCommandBuffer";
       Tnamed "cImGui_MTLRenderCommandEncoder"];
    mkSig "cImGui_ImplMetal_CreateDeviceObjects" Tbool [Tnamed "cImGui_MTLDevice"];
    mkSig "cImGui_ImplMetal_DestroyDeviceObjects" Tvoid [] ].

(** ** Typedef resolution and the typing of calls

    A typedef name is a synonym of the type it aliases, so two types are
    compatible when they resolve to the same type. *)

Fixpoint lookup_typedef (env : list (string * ctype)) (n : string) : option ctype :=
  match env with
  | [] => None
  | (m, t) :: rest => if String.eqb n m then Some t else lookup_typedef rest n
  end.

Fixpoint resolve (fuel : nat) (env : list (string * ctype)) (t : ctype) : ctype :=
  match fuel with
  | O => t
  | S k =>
      match t with
      | Tnamed n =>
          match lookup_typedef env n with
          | Some t' => resolve k env t'
          | None => t
          end
      | Tptr p => Tptr (resolve k env p)
      | Tvoid | Tbool | Tint | Tchar => t
      end
  end.

(** Every typedef of the header aliases a built-in type directly, so a
    chain is resolved well within this fuel. *)
Definition canonical (t : ctype) : ctype :=
  resolve (2 + length typedefs) typedefs t.

Definition compatible (t1 t2 : ctype) : bool :=
  if ctype_eq_dec (canonical t1) (canonical t2) then true else false.

Fixpoint args_accepted (args params : list ctype) : bool :=
  match args, params with
  | [], [] => true
  | a :: args', p :: params' => compatible a p && args_accepted args' params'
  | _, _ => false
  end.

Definition call_typechecks (f : signature) (args : list ctype) : bool :=
  args_accepted args (sig_params f).

(** An object can be read or written through a pointer only at a complete
    pointee type; [void] is incomplete. *)
Definition can_access_pointee (t : ctype) : bool :=
  match canonical t with
  | Tptr Tvoid => false
  | Tptr _ => true
  | _ => false
  end.

(** The five handle kinds, one per typedef of the header. *)
Inductive handle_kind : Type :=
| Device | CommandBuffer | RenderCommandEncoder | RenderPassDescriptor | DrawData.

Definition handle_type (k : handle_kind) : ctype :=
  Tnamed (match k with
          | Device => "cImGui_MTLDevice"
          | CommandBuffer => "cImGui_MTLCommandBuffer"
          | RenderCommandEncoder => "cImGui_MTLRenderCommandEncoder"
          | RenderPassDescriptor => "cImGui_MTLRenderPassDescriptor"
          | DrawData => "cImGui_ImDrawData"
          end).

Definition all_handle_kinds : list handle_kind :=
  [Device; CommandBuffer; RenderCommandEncoder; RenderPassDescriptor; DrawData].

(** Return types that could carry an error code or an error message. *)
Definition reports_error_detail (t : ctype) : bool :=
  match canonical t with
  | Tint | Tchar | Tptr _ | Tnamed _ => true
  | Tvoid | Tbool => false
  end.

(** ** Values crossing the interface *)

(** A [void*] is an address; 0 is the null pointer. *)
Definition void_ptr : Type := Z.

Definition cImGui_MTLDevice : Type := void_ptr.
Definition cImGui_MTLCommandBuffer : Type := void_ptr.
Definition cImGui_MTLRenderCommandEncoder : Type := void_ptr.
Definition cImGui_MTLRenderPassDescriptor : Type := void_ptr.
Definition cImGui_ImDrawData : Type := void_ptr.

(** A call of one of the six prototypes, with its arguments. *)
Inductive shim_call : Type :=
| Call_Init (device : cImGui_MTLDevice)
| Call_Shutdown
| Call_NewFrame (renderPassDescriptor : cImGui_MTLRenderPassDescriptor)
| Call_RenderDrawData (drawData : cImGui_ImDrawData)
                      (commandBuffer : cImGui_MTLCommandBuffer)
                      (commandEncoder : cImGui_MTLRenderCommandEncoder)
| Call_CreateDeviceObjects (device : cImGui_MTLDevice)
| Call_DestroyDeviceObjects.

Definition call_name (c : shim_call) : string :=
  match c with
  | Call_Init _ => "cImGui_ImplMetal_Init"
  | Call_Shutdown => "cImGui_ImplMetal_Shutdown"
  | Call_NewFrame _ => "cImGui_ImplMetal_NewFrame"
  | Call_RenderDrawData _ _ _ => "cImGui_ImplMetal_RenderDrawData"
  | Call_CreateDeviceObjects _ => "cImGui_ImplMetal_CreateDeviceObjects"
  | Call_DestroyDeviceObjects => "cImGui_ImplMetal_DestroyDeviceObjects"
  end.

Definition call_handles (c : shim_call) : list void_ptr :=
  match c with
  | Call_Init d => [d]
  | Call_Shutdown => []
  | Call_NewFrame r => [r]
  | Call_RenderDrawData dd cb ce => [dd; cb; ce]
  | Call_CreateDeviceObjects d => [d]
  | Call_DestroyDeviceObjects => []
  end.

Inductive result : Type := Rbool (b : bool) | Rvoid.

Definition result_type (r : result) : ctype :=
  match r with Rbool _ => Tbool | Rvoid => Tvoid end.

Fixpoint find_function (fs : list signature) (n : string) : option signature :=
  match fs with
  | [] => None
  | f :: rest => if String.eqb n (sig_name f) then Some f else find_function rest n
  end.

(** ** The wrapped backend and the forwarding bodies *)

(** Modelled from the spec: the concrete native graphics-API and GUI
    types the five opaque handles stand for (a GPU device, a command
    buffer, a render command encoder, a render-pass descriptor and a
    draw-data snapshot).  The header itself declares none of them. *)
Inductive native_type : Type :=
| MTLDevice | MTLCommandBuffer | MTLRenderCommandEncoder
| MTLRenderPassDescriptor | ImDrawData.

Record native_ref (t : native_type) : Type := mkRef { ref_addr : Z }.
Arguments mkRef t ref_addr : clear implicits.
Arguments ref_addr {t} _.

(** Modelled from the spec: the translation of an opaque pointer into the
    concrete native type.  It keeps the address. *)
Definition bridge_cast (t : native_type) (h : void_ptr) : native_ref t :=
  mkRef t h.

(** Modelled from the spec: the backend API of the underlying rendering
    library, which is not among the source files.  Its behaviour is the
    library's own, so it is a record of arbitrary state transformers on
    the library's world (memory, GPU and GUI state). *)
Record backend (World : Type) : Type := mkBackend
  { Backend_Init : native_ref MTLDevice -> World -> bool * World;
    Backend_Shutdown : World -> World;
    Backend_NewFrame : native_ref MTLRenderPassDescriptor -> World -> World;
    Backend_RenderDrawData :
      native_ref ImDrawData -> native_ref MTLCommandBuffer ->
      native_ref MTLRenderCommandEncoder -> World -> World;
    Backend_CreateDeviceObjects : native_ref MTLDevice -> World -> bool * World;
    Backend_DestroyDeviceObjects : World -> World }.
Arguments Backend_Init {World} _ _ _.
Arguments Backend_Shutdown {World} _ _.
Arguments Backend_NewFrame {World} _ _ _.
Arguments Backend_RenderDrawData {World} _ _ _ _ _.
Arguments Backend_CreateDeviceObjects {World} _ _ _.
Arguments Backend_DestroyDeviceObjects {World} _ _.

(** Modelled from the spec: a request to the wrapped backend, one
    constructor per operation of its API. *)
Inductive backend_call : Type :=
| BInit (device : native_ref MTLDevice)
| BShutdown
| BNewFrame (renderPassDescriptor : native_ref MTLRenderPassDescriptor)
| BRenderDrawData (drawData : native_ref ImDrawData)
                  (commandBuffer : native_ref MTLCommandBuffer)
                  (commandEncoder : native_ref MTLRenderCommandEncoder)
| BCreateDeviceObjects (device : native_ref MTLDevice)
| BDestroyDeviceObjects.

Definition backend_pointers (c : backend_call) : list Z :=
  match c with
  | BInit d => [ref_addr d]
  | BShutdown => []
  | BNewFrame r => [ref_addr r]
  | BRenderDrawData dd cb ce => [ref_addr dd; ref_addr cb; ref_addr ce]
  | BCreateDeviceObjects d => [ref_addr d]
  | BDestroyDeviceObjects => []
  end.

Section Shim.
Context {World : Type}.
Variable B : backend World.

(** Modelled from the spec: the six function bodies, which live in the
    implementation file and not in the header.  Each one casts its
    handles and makes the one corresponding backend call.  This is the
    body of Init. *)
Definition cImGui_ImplMetal_Init (device : cImGui_MTLDevice) (w : World)
  : bool * World :=
  Backend_Init B (bridge_cast MTLDevice device) w.

(** Modelled from the spec: the body of Shutdown, missing from the
    sources; it forwards to the backend's shutdown. *)
Definition cImGui_ImplMetal_Shutdown (w : World) : World :=
  Backend_Shutdown B w.

(** Modelled from the spec: the body of NewFrame, missing from the
    sources; it casts the descriptor handle and forwards. *)
Definition cImGui_ImplMetal_NewFrame
           (renderPassDescriptor : cImGui_MTLRenderPassDescriptor) (w : World)
  : World :=
  Backend_NewFrame B (bridge_cast MTLRenderPassDescriptor renderPassDescriptor) w.

(** Modelled from the spec: the body of RenderDrawData, missing from the
    sources; it casts its three handles and forwards them in order. *)
Definition cImGui_ImplMetal_RenderDrawData
           (drawData : cImGui_ImDrawData)
           (commandBuffer : cImGui_MTLCommandBuffer)
           (commandEncoder : cImGui_MTLRenderCommandEncoder) (w : World)
  : World :=
  Backend_RenderDrawData B
    (bridge_cast ImDrawData drawData)
    (bridge_cast MTLCommandBuffer commandBuffer)
    (bridge_cast MTLRenderCommandEncoder commandEncoder) w.

(** Modelled from the spec: the body of CreateDeviceObjects, missing
    from the sources; it casts the device handle and forwards. *)
Definition cImGui_ImplMetal_CreateDeviceObjects (device : cImGui_MTLDevice)
           (w : World) : bool * World :=
  Backend_CreateDeviceObjects B (bridge_cast MTLDevice device) w.

(** Modelled from the spec: the body of DestroyDeviceObjects, missing
    from the sources; it forwards to the backend's teardown hook. *)
Definition cImGui_ImplMetal_DestroyDeviceObjects (w : World) : World :=
  Backend_DestroyDeviceObjects B w.

(** What a caller observes of one call: the returned value and the world
    afterwards. *)
Definition exec_shim (c : shim_call) (w : World) : result * World :=
  match c with
  | Call_Init d =>
      let (ok, w') := cImGui_ImplMetal_Init d w in (Rbool ok, w')
  | Call_Shutdown => (Rvoid, cImGui_ImplMetal_Shutdown w)
  | Call_NewFrame r => (Rvoid, cImGui_ImplMetal_NewFrame r w)
  | Call_RenderDrawData dd cb ce =>
      (Rvoid, cImGui_ImplMetal_RenderDrawData dd cb ce w)
  | Call_CreateDeviceObjects d =>
      let (ok, w') := cImGui_ImplMetal_CreateDeviceObjects d w in (Rbool ok, w')
  | Call_DestroyDeviceObjects => (Rvoid, cImGui_ImplMetal_DestroyDeviceObjects w)
  end.

Definition exec_backend (c : backend_call) (w : World) : result * World :=
  match c with
  | BInit d => let (ok, w') := Backend_Init B d w in (Rbool ok, w')
  | BShutdown => (Rvoid, Backend_Shutdown B w)
  | BNewFrame r => (Rvoid, Backend_NewFrame B r w)
  | BRenderDrawData dd cb ce => (Rvoid, Backend_RenderDrawData B dd cb ce w)
  | BCreateDeviceObjects d =>
      let (ok, w') := Backend_CreateDeviceObjects B d w in (Rbool ok, w')
  | BDestroyDeviceObjects => (Rvoid, Backend_DestroyDeviceObjects B w)
  end.

(** A program of calls, run in order; the results are kept in call order. *)
Fixpoint run_shim (cs : list shim_call) (w : World) : list result * World :=
  match cs with
  | [] => ([], w)
  | c :: rest =>
      let (r, w1) := exec_shim c w in
      let (rs, w2) := run_shim rest w1 in
      (r :: rs, w2)
  end.

Fixpoint run_backend (cs : list backend_call) (w : World) : list result * World :=
  match cs with
  | [] => ([], w)
  | c :: rest =>
      let (r, w1) := exec_backend c w in
      let (rs, w2) := run_backend rest w1 in
      (r :: rs, w2)
  end.
End Shim.

(** Modelled from the spec: the underlying backend call that corresponds
    to each binding (the wrapped library's API is not among the sources):
    same operation, same arguments, each handle translated to its native
    type. *)
Definition corresponding (c : shim_call) : backend_call :=
  match c with
  | Call_Init d => BInit (bridge_cast MTLDevice d)
  | Call_Shutdown => BShutdown
  | Call_NewFrame r => BNewFrame (bridge_cast MTLRenderPassDescriptor r)
  | Call_RenderDrawData dd cb ce =>
      BRenderDrawData (bridge_cast ImDrawData dd)
                      (bridge_cast MTLCommandBuffer cb)
                      (bridge_cast MTLRenderCommandEncoder ce)
  | Call_CreateDeviceObjects d => BCreateDeviceObjects (bridge_cast MTLDevice d)
  | Call_DestroyDeviceObjects => BDestroyDeviceObjects
  end.

(** A backend that records every call it receives, in order, and the
    world it is given: what the wrapped library sees of the shim. *)
Definition recording_backend (World : Type) (answer : bool)
  : backend (list (backend_call * World) * World) :=
  {| Backend_Init := fun d s => (answer, (fst s ++ [(BInit d, snd s)], snd s));
     Backend_Shutdown := fun s => (fst s ++ [(BShutdown, snd s)], snd s);
     Backend_NewFrame := fun r s => (fst s ++ [(BNewFrame r, snd s)], snd s);
     Backend_RenderDrawData := fun dd cb ce s =>
       (fst s ++ [(BRenderDrawData dd cb ce, snd s)], snd s);
     Backend_CreateDeviceObjects := fun d s =>
       (answer, (fst s ++ [(BCreateDeviceObjects d, snd s)], snd s));
     Backend_DestroyDeviceObjects := fun s =>
       (fst s ++ [(BDestroyDeviceObjects, snd s)], snd s) |}.

(** A backend that does nothing: with it, whatever happens to the world
    during a call is the doing of the shim's own code. *)
Definition inert_backend (World : Type) (answer : bool) : backend World :=
  {| Backend_Init := fun _ w => (answer, w);
     Backend_Shutdown := fun w => w;
     Backend_NewFrame := fun _ w => w;
     Backend_RenderDrawData := fun _ _ _ w => w;
     Backend_CreateDeviceObjects := fun _ w => (answer, w);
     Backend_DestroyDeviceObjects := fun w => w |}.

(** ** The call protocol *)

(** What the caller does over time: calls of the six bindings, and the
    GUI library's own frame-start and render calls that the header's
    comments name. *)
Inductive event : Type :=
| Shim (c : shim_call)
| ImGui_NewFrame
| ImGui_Render.

(** Modelled from the spec: where a caller stands in the lifecycle the
    spec describes (before Init, between frames, and the three stages of
    an open frame). *)
Inductive phase : Type :=
| Uninitialized
| Idle
| FrameBegun
| GuiFrameBegun
| GuiRendered.

(** Modelled from the spec: the sequencing requirements on the caller.
    Init once before any frame; a frame is NewFrame, the GUI library's
    frame start, the GUI library's render, RenderDrawData; Shutdown only
    when no frame is open.  The two device-object hooks may be called
    manually at any time and do not move the protocol. *)
Definition step (p : phase) (e : event) : option phase :=
  match e, p with
  | Shim (Call_Init _), Uninitialized => Some Idle
  | Shim Call_Shutdown, Idle => Some Uninitialized
  | Shim (Call_NewFrame _), Idle => Some FrameBegun
  | ImGui_NewFrame, FrameBegun => Some GuiFrameBegun
  | ImGui_Render, GuiFrameBegun => Some GuiRendered
  | Shim (Call_RenderDrawData _ _ _), GuiRendered => Some Idle
  | Shim (Call_CreateDeviceObjects _), _ => Some p
  | Shim Call_DestroyDeviceObjects, _ => Some p
  | _, _ => None
  end.

Fixpoint run (p : phase) (t : list event) : option phase :=
  match t with
  | [] => Some p
  | e :: rest =>
      match step p e with
      | Some p' => run p' rest
      | None => None
      end
  end.

Definition legal (t : list event) : bool :=
  match run Uninitialized t with Some _ => true | None => false end.

Definition is_init (e : event) : bool :=
  match e with Shim (Call_Init _) => true | _ => false end.

Definition is_shutdown (e : event) : bool :=
  match e with Shim Call_Shutdown => true | _ => false end.

Definition is_new_frame (e : event) : bool :=
  match e with Shim (Call_NewFrame _) => true | _ => false end.

Definition is_render_draw_data (e : event) : bool :=
  match e with Shim (Call_RenderDrawData _ _ _) => true | _ => false end.

Definition is_frame_operation (e : event) : bool :=
  is_new_frame e || is_render_draw_data e.

Definition is_device_object_hook (e : event) : bool :=
  match e with
  | Shim (Call_CreateDeviceObjects _) | Shim Call_DestroyDeviceObjects => true
  | _ => false
  end.

(** [directly_after test pre]: [pre] contains an event satisfying [test]
    with only device-object hooks after it. *)
Definition directly_after (test : event -> bool) (pre : list event) : Prop :=
  exists p1 e p2,
    pre = p1 ++ e :: p2 /\ test e = true /\
    forallb is_device_object_hook p2 = true.

(** [pre] contains an Init with no Shutdown after it. *)
Definition initialized_by (pre : list event) : Prop :=
  exists p1 e p2,
    pre = p1 ++ e :: p2 /\ is_init e = true /\
    forallb (fun x => negb (is_shutdown x)) p2 = true.

(** Every frame opened in [pre] has been completed in [pre]: each
    NewFrame is followed by a RenderDrawData before any other NewFrame. *)
Definition frames_complete (pre : list event) : Prop :=
  forall p1 e p2,
    pre = p1 ++ e :: p2 -> is_new_frame e = true ->
    exists q1 r q2,
      p2 = q1 ++ r :: q2 /\ is_render_draw_data r = true /\
      forallb (fun x => negb (is_new_frame x)) q1 = true.

Definition is_imgui_new_frame (e : event) : bool :=
  match e with ImGui_NewFrame => true | _ => false end.

Definition is_imgui_render (e : event) : bool :=
  match e with ImGui_Render => true | _ => false end.

(** [pre] ends inside a frame: its last NewFrame has no RenderDrawData
    after it, and every earlier frame is complete. *)
Definition frame_open (pre : list event) : Prop :=
  exists p1 e p2,
    pre = p1 ++ e :: p2 /\ is_new_frame e = true /\ frames_complete p1 /\
    forallb (fun x => negb (is_new_frame x)) p2 = true.

Definition in_frame (p : phase) : bool :=
  match p with
  | FrameBegun | GuiFrameBegun | GuiRendered => true
  | Uninitialized | Idle => false
  end.

(** ** Well-formedness of a header in its including context *)


(** A type can be written where every name in it is known: [bool] is a
    keyword of C++ and, in C, a macro of [stdbool.h]; a typedef name must
    have been declared. *)
Fixpoint type_in_scope (cplusplus bool_ok : bool) (known : list string)
         (t : ctype) : bool :=
  match t with
  | Tvoid | Tint | Tchar => true
  | Tbool => cplusplus || bool_ok
  | Tptr p => type_in_scope cplusplus bool_ok known p
  | Tnamed n => existsb (String.eqb n) known
  end.

Definition decl_in_scope (cplusplus bool_ok : bool) (known : list string)
           (d : decl) : bool :=
  match d with
  | Typedef t _ => type_in_scope cplusplus bool_ok known t
  | Function r _ ps =>
      type_in_scope cplusplus bool_ok known r
      && forallb (fun p => type_in_scope cplusplus bool_ok known (param_type p)) ps
  end.

(** Declaration before use, over the live lines of a header: [bool_ok]
    says whether [stdbool.h] has been included so far, [known] lists the
    typedef names declared so far. *)
Fixpoint in_scope_from (cplusplus : bool) (skip : nat) (bool_ok : bool)
         (known : list string) (ls : list line) : bool :=
  match ls with
  | [] => true
  | l :: rest =>
      match l with
      | Ifdef m =>
          match skip with
          | O => if defined cplusplus m
                 then in_scope_from cplusplus 0 bool_ok known rest
                 else in_scope_from cplusplus 1 bool_ok known rest
          | S _ => in_scope_from cplusplus (S skip) bool_ok known rest
          end
      | Endif => in_scope_from cplusplus (Nat.pred skip) bool_ok known rest
      | Include f =>
          match skip with
          | O => in_scope_from cplusplus 0
                   (bool_ok || String.eqb f "stdbool.h") known rest
          | S _ => in_scope_from cplusplus skip bool_ok known rest
          end
      | Decl d =>
          match skip with
          | O => decl_in_scope cplusplus bool_ok known d
                 && in_scope_from cplusplus 0 bool_ok
                      (match d with
                       | Typedef _ n => n :: known
                       | Function _ _ _ => known
                       end) rest
          | S _ => in_scope_from cplusplus skip bool_ok known rest
          end
      | Comment _ | PragmaOnce | ExternC_open | Close_brace =>
          in_scope_from cplusplus skip bool_ok known rest
      end
  end.

(** The types a signature mentions: its return type and its parameters. *)
Definition signature_types (f : signature) : list ctype :=
  sig_ret f :: sig_params f.

(** ** A translation unit that includes the header *)

(** A line of the including unit: a line of its own, or
    [#include "cimgui_impl_metal.h"]. *)
Inductive unit_line : Type :=
| Own (l : line)
| Include_cimgui_impl_metal_h.

(** What one line does to the preprocessing state and which declaration
    it yields; the cases are those of [elaborate_from]. *)
Definition line_step (cplusplus : bool) (skip : nat) (blocks : list linkage)
           (l : line) : nat * list linkage * list (linkage * decl) :=
  match l with
  | Ifdef m =>
      match skip with
      | O => if defined cplusplus m then (0, blocks, []) else (1, blocks, [])
      | S _ => (S skip, blocks, [])
      end
  | Endif => (Nat.pred skip, blocks, [])
  | ExternC_open =>
      match skip with
      | O => (0, LinkC :: blocks, [])
      | S _ => (skip, blocks, [])
      end
  | Close_brace =>
      match skip with
      | O => (0, tl blocks, [])
      | S _ => (skip, blocks, [])
      end
  | Decl d =>
      match skip with
      | O => (0, blocks, [(hd (default_linkage cplusplus) blocks, d)])
      | S _ => (skip, blocks, [])
      end
  | Comment _ | PragmaOnce | Include _ => (skip, blocks, [])
  end.

(** The nesting depth and the linkage blocks a run of lines ends with. *)
Fixpoint state_after (cplusplus : bool) (skip : nat) (blocks : list linkage)
         (ls : list line) : nat * list linkage :=
  match ls with
  | [] => (skip, blocks)
  | l :: rest =>
      let '(skip', blocks', _) := line_step cplusplus skip blocks l in
      state_after cplusplus skip' blocks' rest
  end.

(** Whether processing the lines meets a live [#pragma once]. *)
Fixpoint pragma_once_live (cplusplus : bool) (skip : nat) (ls : list line) : bool :=
  match ls with
  | [] => false
  | PragmaOnce :: rest =>
      match skip with
      | O => true
      | S _ => pragma_once_live cplusplus skip rest
      end
  | l :: rest =>
      let '(skip', _, _) := line_step cplusplus skip [] l in
      pragma_once_live cplusplus skip' rest
  end.

(** Elaboration of a unit.  An inclusion inside a disabled region is not
    opened; an inclusion of a file already processed under
    [#pragma once] is skipped; otherwise the lines of the header are
    processed in place.  [once] says whether the header has been
    processed under [#pragma once] so far. *)
Fixpoint elaborate_unit (cplusplus once : bool) (skip : nat)
         (blocks : list linkage) (u : list unit_line) : list (linkage * decl) :=
  match u with
  | [] => []
  | Own l :: rest =>
      let '(skip', blocks', out) := line_step cplusplus skip blocks l in
      out ++ elaborate_unit cplusplus once skip' blocks' rest
  | Include_cimgui_impl_metal_h :: rest =>
      match skip with
      | S _ => elaborate_unit cplusplus once skip blocks rest
      | O =>
          if once
          then elaborate_unit cplusplus once 0 blocks rest
          else
            let (skip', blocks') :=
              state_after cplusplus 0 blocks cimgui_impl_metal_h in
            elaborate_from cplusplus 0 blocks cimgui_impl_metal_h
            ++ elaborate_unit cplusplus
                 (pragma_once_live cplusplus 0 cimgui_impl_metal_h)
                 skip' blocks' rest
      end
  end.


(** ** Sample inputs *)

(** A reimplementation that renames the parameters and drops the
    comments and the include guard still conforms. *)
Definition renamed_reimplementation : list line :=
  [ Ifdef "__cplusplus"; ExternC_open; Endif;
    Decl (Typedef (Tptr Tvoid) "cImGui_MTLDevice");
    Decl (Typedef (Tptr Tvoid) "cImGui_MTLCommandBuffer");
    Decl (Typedef (Tptr Tvoid) "cImGui_MTLRenderCommandEncoder");
    Decl (Typedef (Tptr Tvoid) "cImGui_MTLRenderPassDescriptor");
    Decl (Typedef (Tptr Tvoid) "cImGui_ImDrawData");
    Decl (Function Tbool "cImGui_ImplMetal_Init"
            [mkParam (Tnamed "cImGui_MTLDevice") "dev"]);
    Decl (Function Tvoid "cImGui_ImplMetal_Shutdown" []);
    Decl (Function Tvoid "cImGui_ImplMetal_NewFrame"
            [mkParam (Tnamed "cImGui_MTLRenderPassDescriptor") "desc"]);
    Decl (Function Tvoid "cImGui_ImplMetal_RenderDrawData"
            [mkParam (Tnamed "cImGui_ImDrawData") "data";
             mkParam (Tnamed "cImGui_MTLCommandBuffer") "buffer";
             mkParam (Tnamed "cImGui_MTLRenderCommandEncoder") "encoder"]);
    Decl (Function Tbool "cImGui_ImplMetal_CreateDeviceObjects"
            [mkParam (Tnamed "cImGui_MTLDevice") "dev"]);
    Decl (Function Tvoid "cImGui_ImplMetal_DestroyDeviceObjects" []);
    Ifdef "__cplusplus"; Close_brace; Endif ].

(** A session of one frame, from Init to Shutdown. *)
Definition example_session : list event :=
  [ Shim (Call_Init 4096%Z);
    Shim (Call_NewFrame 8192%Z);
    ImGui_NewFrame;
    ImGui_Render;
    Shim (Call_RenderDrawData 12288%Z 16384%Z 20480%Z);
    Shim Call_Shutdown ].

(** Case analysis of one protocol step. *)
Ltac step_cases e q H :=
  destruct e as [[ | | | | | ] | | ]; destruct q; simpl in H;
  try discriminate H; try (injection H as <-).

(** * Theorems *)

(** ** Lists and runs of the protocol *)

Lemma last_or_nil {A : Type} (l : list A) :
  l = [] \/ exists l' a, l = l' ++ [a].
Proof.
  induction l as [|x l IH] using rev_ind.
  - now left.
  - right. now exists l, x.
Qed.

Lemma snoc_split {A : Type} (pre p1 p2 : list A) (x e : A) :
  pre ++ [x] = p1 ++ e :: p2 ->
  (p2 = [] /\ e = x /\ p1 = pre) \/
  (exists p2', p2 = p2' ++ [x] /\ pre = p1 ++ e :: p2').
Proof.
  intros H. destruct (last_or_nil p2) as [-> | (q & a & ->)].
  - left. apply app_inj_tail in H. destruct H as [-> ->]. auto.
  - right. exists q.
    assert (E : p1 ++ e :: q ++ [a] = (p1 ++ e :: q) ++ [a])
      by (rewrite <- app_assoc; reflexivity).
    rewrite E in H. apply app_inj_tail in H. destruct H as [-> ->]. auto.
Qed.

Lemma run_app (p : phase) (a b : list event) :
  run p (a ++ b) =
  match run p a with Some q => run q b | None => None end.
Proof.
  revert p. induction a as [|e a IH]; intros p; simpl.
  - reflexivity.
  - destruct (step p e); [apply IH | reflexivity].
Qed.

Lemma run_snoc (pre : list event) (e : event) (p : phase) :
  run Uninitialized (pre ++ [e]) = Some p ->
  exists q, run Uninitialized pre = Some q /\ step q e = Some p.
Proof.
  rewrite run_app. destruct (run Uninitialized pre) as [q|]; [|discriminate].
  simpl. destruct (step q e) as [p'|] eqn:E; [|discriminate].
  intros H. injection H as <-. now exists q.
Qed.

Lemma legal_split (pre post : list event) (e : event) :
  legal (pre ++ e :: post) = true ->
  exists q q', run Uninitialized pre = Some q /\ step q e = Some q'.
Proof.
  unfold legal. rewrite run_app.
  destruct (run Uninitialized pre) as [q|]; [|discriminate].
  simpl. destruct (step q e) as [q'|] eqn:E; [|discriminate].
  intros _. now exists q, q'.
Qed.

Lemma initialized_by_keep (pre : list event) (e : event) :
  initialized_by pre -> is_shutdown e = false -> initialized_by (pre ++ [e]).
Proof.
  intros (p1 & i & p2 & -> & Hi & Hn) He.
  exists p1, i, (p2 ++ [e]). repeat split; auto.
  - now rewrite <- app_assoc.
  - rewrite forallb_app, Hn. simpl. now rewrite He.
Qed.

Lemma initialized_by_init (pre : list event) (e : event) :
  is_init e = true -> initialized_by (pre ++ [e]).
Proof. intros He. exists pre, e, []. repeat split; auto. Qed.

Lemma directly_after_here (test : event -> bool) (pre : list event) (e : event) :
  test e = true -> directly_after test (pre ++ [e]).
Proof. intros He. exists pre, e, []. repeat split; auto. Qed.

Lemma directly_after_hook (test : event -> bool) (pre : list event) (e : event) :
  directly_after test pre -> is_device_object_hook e = true ->
  directly_after test (pre ++ [e]).
Proof.
  intros (p1 & x & p2 & -> & Hx & Hh) He.
  exists p1, x, (p2 ++ [e]). repeat split; auto.
  - now rewrite <- app_assoc.
  - rewrite forallb_app, Hh. simpl. now rewrite He.
Qed.

Lemma frames_complete_keep (pre : list event) (e : event) :
  frames_complete pre -> is_new_frame e = false -> frames_complete (pre ++ [e]).
Proof.
  intros Hc He p1 x p2 Hsplit Hx.
  apply snoc_split in Hsplit. destruct Hsplit as [(_ & -> & _) | (q & -> & Hpre)].
  - congruence.
  - destruct (Hc p1 x q Hpre Hx) as (q1 & r & q2 & -> & Hr & Hn).
    exists q1, r, (q2 ++ [e]). repeat split; auto.
    now rewrite <- app_assoc.
Qed.

Lemma frame_open_keep (pre : list event) (e : event) :
  frame_open pre -> is_new_frame e = false -> frame_open (pre ++ [e]).
Proof.
  intros (p1 & x & p2 & -> & Hx & Hc & Hn) He.
  exists p1, x, (p2 ++ [e]). repeat split; auto.
  - now rewrite <- app_assoc.
  - rewrite forallb_app, Hn. simpl. now rewrite He.
Qed.

Lemma frame_open_begin (pre : list event) (e : event) :
  frames_complete pre -> is_new_frame e = true -> frame_open (pre ++ [e]).
Proof. intros Hc He. exists pre, e, []. repeat split; auto. Qed.

Lemma no_new_frame_split (p1 p2 : list event) (x : event) (l : list event) :
  forallb (fun y => negb (is_new_frame y)) l = true ->
  l = p1 ++ x :: p2 -> is_new_frame x = true -> False.
Proof.
  intros Hn -> Hx. rewrite forallb_app in Hn. simpl in Hn.
  rewrite Hx in Hn. simpl in Hn. rewrite andb_false_r in Hn. discriminate.
Qed.

Lemma frames_complete_nil : frames_complete [].
Proof. intros p1 e p2 H. now destruct p1. Qed.

Lemma frames_complete_close (pre : list event) (e : event) :
  frame_open pre -> is_render_draw_data e = true -> is_new_frame e = false ->
  frames_complete (pre ++ [e]).
Proof.
  intros (p1 & x & p2 & -> & Hx & Hc & Hn) Hr He a y b Hsplit Hy.
  apply snoc_split in Hsplit. destruct Hsplit as [(_ & -> & _) | (b' & -> & Hpre)].
  - congruence.
  - apply app_eq_app in Hpre. destruct Hpre as (l & [(Hp1 & Hb) | (Ha & Hb)]).
    + destruct l as [|z l]; simpl in Hb.
      * injection Hb as -> ->. exists p2, e, []. repeat split; auto.
      * injection Hb as <- ->.
        destruct (Hc a y l Hp1 Hy) as (q1 & r & q2 & -> & Hq & Hq1).
        exists q1, r, (q2 ++ x :: p2 ++ [e]). repeat split; auto.
        rewrite <- !app_assoc. reflexivity.
    + destruct l as [|z l]; simpl in Hb.
      * injection Hb as -> ->. exists b', e, []. repeat split; auto.
      * injection Hb as -> Hp2.
        exfalso. exact (no_new_frame_split l b' y p2 Hn Hp2 Hy).
Qed.

(** What the phase reached by a run says about the calls made so far. *)
Lemma history (pre : list event) :
  forall p, run Uninitialized pre = Some p ->
    (p <> Uninitialized -> initialized_by pre) /\
    (p = FrameBegun -> directly_after is_new_frame pre) /\
    (p = GuiRendered -> directly_after is_imgui_render pre) /\
    (in_frame p = false -> frames_complete pre) /\
    (in_frame p = true -> frame_open pre).
Proof.
  induction pre as [|e pre IH] using rev_ind; intros p Hrun.
  - simpl in Hrun. injection Hrun as <-.
    repeat split; intros; try congruence; try discriminate.
    apply frames_complete_nil.
  - apply run_snoc in Hrun. destruct Hrun as (q & Hq & Hstep).
    destruct (IH q Hq) as (I1 & I2 & I3 & I4 & I5).
    step_cases e q Hstep;
      repeat split; intros; try congruence; try discriminate;
      first
        [ apply initialized_by_init; reflexivity
        | apply initialized_by_keep; [apply I1; congruence | reflexivity]
        | apply directly_after_here; reflexivity
        | apply directly_after_hook; [auto | reflexivity]
        | apply frames_complete_keep; [apply I4; reflexivity | reflexivity]
        | apply frames_complete_close; [apply I5; reflexivity | reflexivity | reflexivity]
        | apply frame_open_begin; [apply I4; reflexivity | reflexivity]
        | apply frame_open_keep; [apply I5; reflexivity | reflexivity] ].
Qed.

(** ** The forwarding bodies *)

Lemma exec_shim_corresponding {World : Type} (B : backend World)
      (c : shim_call) (w : World) :
  exec_shim B c w = exec_backend B (corresponding c) w.
Proof. destruct c; reflexivity. Qed.

Lemma run_shim_corresponding {World : Type} (B : backend World)
      (cs : list shim_call) :
  forall w, run_shim B cs w = run_backend B (map corresponding cs) w.
Proof.
  induction cs as [|c cs IH]; intros w; simpl.
  - reflexivity.
  - rewrite exec_shim_corresponding.
    destruct (exec_backend B (corresponding c) w) as [r w1].
    now rewrite IH.
Qed.

Lemma pointers_passed_through (c : shim_call) :
  backend_pointers (corresponding c) = call_handles c.
Proof. destruct c; reflexivity. Qed.

(** The modelled bodies return what their prototypes declare. *)
Lemma exec_shim_result_type {World : Type} (B : backend World)
      (c : shim_call) (w : World) :
  option_map sig_ret (find_function functions (call_name c))
  = Some (result_type (fst (exec_shim B c w))).
Proof.
  destruct c; simpl; unfold cImGui_ImplMetal_Init, cImGui_ImplMetal_CreateDeviceObjects;
    try reflexivity.
  - destruct (Backend_Init B _ w); reflexivity.
  - destruct (Backend_CreateDeviceObjects B _ w); reflexivity.
Qed.

(** What the wrapped library sees of one call: one request, the
    corresponding one, in the world the caller had. *)
Lemma recorded_call {World : Type} (answer : bool) (c : shim_call)
      (log : list (backend_call * World)) (w : World) :
  snd (exec_shim (recording_backend World answer) c (log, w)) =
  (log ++ [(corresponding c, w)], w).
Proof. destruct c; reflexivity. Qed.

Lemma recorded_run {World : Type} (answer : bool) (cs : list shim_call) :
  forall (log : list (backend_call * World)) (w : World),
    snd (run_shim (recording_backend World answer) cs (log, w)) =
    (log ++ map (fun c => (corresponding c, w)) cs, w).
Proof.
  induction cs as [|c cs IH]; intros log w; simpl.
  - now rewrite app_nil_r.
  - pose proof (recorded_call answer c log w) as Hc.
    destruct (exec_shim (recording_backend World answer) c (log, w)) as [r s1].
    simpl in Hc. subst s1.
    specialize (IH (log ++ [(corresponding c, w)]) w).
    destruct (run_shim (recording_backend World answer) cs
                (log ++ [(corresponding c, w)], w)) as [rs s2].
    simpl in *. rewrite IH, <- app_assoc. reflexivity.
Qed.

(** ** The header *)

Example elaborate_c_translation_unit :
  map fst (elaborate false cimgui_impl_metal_h) = repeat LinkC 11.
Proof. reflexivity. Qed.

Example elaborate_cxx_translation_unit :
  map fst (elaborate true cimgui_impl_metal_h) = repeat LinkC 11.
Proof. reflexivity. Qed.

(** Without the linkage block a C++ translation unit would give the
    declarations C++ linkage: the block is what makes them C-callable. *)
Example linkage_block_matters :
  map fst (elaborate true
             (filter (fun l => match l with ExternC_open | Close_brace => false | _ => true end)
                     cimgui_impl_metal_h))
  = repeat LinkCxx 11.
Proof. reflexivity. Qed.

Lemma header_conforms : conforming cimgui_impl_metal_h = true.
Proof. reflexivity. Qed.

Lemma conforming_surface (reimpl : list line) :
  conforming reimpl = true ->
  forall cplusplus,
    surface_of cplusplus reimpl = surface_of cplusplus cimgui_impl_metal_h.
Proof.
  unfold conforming. intros H cplusplus.
  apply andb_true_iff in H. destruct H as [Hc Hx].
  destruct (surface_eq_dec (surface_of false reimpl) _) as [Ec|]; [|discriminate].
  destruct (surface_eq_dec (surface_of true reimpl) _) as [Ex|]; [|discriminate].
  destruct cplusplus; assumption.
Qed.

(** ** The claims on the interface *)

(** C1. The public interface of the header is exactly five opaque pointer
    typedefs (cImGui_MTLDevice, cImGui_MTLCommandBuffer,
    cImGui_MTLRenderCommandEncoder, cImGui_MTLRenderPassDescriptor,
    cImGui_ImDrawData) and exactly six functions (Init, Shutdown, NewFrame,
    RenderDrawData, CreateDeviceObjects, DestroyDeviceObjects), every one
    declared with C linkage whether a C or a C++ translation unit includes
    the header; a conforming reimplementation exposes the same typedefs and
    signatures with the same linkage. *)
Theorem C1_interface_surface :
  (forall cplusplus : bool,
      let ds := elaborate cplusplus cimgui_impl_metal_h in
      typedefs_of (map snd ds) = map (fun n => (n, Tptr Tvoid)) handle_typedef_names /\
      functions_of (map snd ds) = interface_functions /\
      length ds = 5 + 6 /\
      Forall (fun ld => fst ld = LinkC) ds) /\
  length handle_typedef_names = 5 /\
  length interface_functions = 6 /\
  NoDup handle_typedef_names /\
  NoDup (map sig_name interface_functions) /\
  (forall reimpl : list line,
      conforming reimpl = true ->
      forall cplusplus : bool,
        let ds := elaborate cplusplus reimpl in
        typedefs_of (map snd ds) = map (fun n => (n, Tptr Tvoid)) handle_typedef_names /\
        functions_of (map snd ds) = interface_functions /\
        Forall (fun l => l = LinkC) (map fst ds)).
Proof.
  split; [|split; [|split; [|split; [|split]]]].
  - intros [|]; cbv zeta; repeat split; try reflexivity;
      vm_compute; repeat constructor.
  - reflexivity.
  - reflexivity.
  - unfold handle_typedef_names.
    repeat (constructor; [simpl; intuition discriminate|]).
    constructor.
  - simpl.
    repeat (constructor; [simpl; intuition discriminate|]).
    constructor.
  - intros reimpl Hconf cplusplus. cbv zeta.
    pose proof (conforming_surface reimpl Hconf cplusplus) as Hs.
    unfold surface_of in Hs. injection Hs as Ht Hf Hl.
    rewrite Ht, Hf, Hl.
    destruct cplusplus; repeat split; try reflexivity;
      vm_compute; repeat constructor.
Qed.

Lemma C1_interface_surface_witness :
  conforming renamed_reimplementation = true /\
  functions_of (map snd (elaborate true renamed_reimplementation)) = interface_functions.
Proof.
  split.
  - vm_compute. reflexivity.
  - apply (proj2 (proj2 (proj2 (proj2 (proj2 C1_interface_surface))))
             renamed_reimplementation eq_refl true).
Defined.

(** C2. Exactly two of the six functions return a boolean flag, Init and
    CreateDeviceObjects; Shutdown, NewFrame, RenderDrawData and
    DestroyDeviceObjects return void; no function has a return type that
    could carry an error code or message, and no parameter is anything
    but one of the five handles. *)
Theorem C2_return_types :
  map (fun f => (sig_name f, sig_ret f)) functions =
    [ ("cImGui_ImplMetal_Init", Tbool);
      ("cImGui_ImplMetal_Shutdown", Tvoid);
      ("cImGui_ImplMetal_NewFrame", Tvoid);
      ("cImGui_ImplMetal_RenderDrawData", Tvoid);
      ("cImGui_ImplMetal_CreateDeviceObjects", Tbool);
      ("cImGui_ImplMetal_DestroyDeviceObjects", Tvoid) ] /\
  map sig_name (filter (fun f => if ctype_eq_dec (sig_ret f) Tbool then true else false)
                       functions) =
    [ "cImGui_ImplMetal_Init"; "cImGui_ImplMetal_CreateDeviceObjects" ] /\
  map sig_name (filter (fun f => if ctype_eq_dec (sig_ret f) Tvoid then true else false)
                       functions) =
    [ "cImGui_ImplMetal_Shutdown"; "cImGui_ImplMetal_NewFrame";
      "cImGui_ImplMetal_RenderDrawData"; "cImGui_ImplMetal_DestroyDeviceObjects" ] /\
  forallb (fun f => negb (reports_error_detail (sig_ret f))) functions = true /\
  forallb (fun f =>
             forallb (fun t => existsb (fun k => if ctype_eq_dec t (handle_type k)
                                                 then true else false)
                                       all_handle_kinds)
                     (sig_params f))
          functions = true.
Proof. repeat split; vm_compute; reflexivity. Qed.

(** C3. The parameter lists are those of the contract table: Init takes
    one device handle; Shutdown nothing; NewFrame one render-pass-descriptor
    handle; RenderDrawData a draw-data handle, a command-buffer handle and
    a render-command-encoder handle, in this order; CreateDeviceObjects one
    device handle; DestroyDeviceObjects nothing.  A call of the model
    carries as many handles as its prototype has parameters. *)
Theorem C3_parameter_lists :
  map (fun f => (sig_name f, sig_params f)) functions =
    [ ("cImGui_ImplMetal_Init", [handle_type Device]);
      ("cImGui_ImplMetal_Shutdown", []);
      ("cImGui_ImplMetal_NewFrame", [handle_type RenderPassDescriptor]);
      ("cImGui_ImplMetal_RenderDrawData",
        [handle_type DrawData; handle_type CommandBuffer;
         handle_type RenderCommandEncoder]);
      ("cImGui_ImplMetal_CreateDeviceObjects", [handle_type Device]);
      ("cImGui_ImplMetal_DestroyDeviceObjects", []) ] /\
  (forall c : shim_call,
      exists f, find_function functions (call_name c) = Some f /\
                length (sig_params f) = length (call_handles c)).
Proof.
  split.
  - reflexivity.
  - intros c; destruct c; eexists; split; reflexivity.
Qed.

(** C6 as stated fails: the header declares five opaque type aliases, not
    four. *)
Lemma C6_alias_count_counterexample :
  length typedefs <> 4 /\ length (typedefs_of (declarations cimgui_impl_metal_h)) = 5.
Proof. split; [vm_compute; discriminate | reflexivity]. Qed.

(** C6, amended. The components of the file are five opaque type aliases
    (device, command buffer, render command encoder, render pass
    descriptor, draw data) and six function declarations. *)
Theorem C6_five_aliases_six_functions :
  map fst typedefs =
    [ "cImGui_MTLDevice"; "cImGui_MTLCommandBuffer"; "cImGui_MTLRenderCommandEncoder";
      "cImGui_MTLRenderPassDescriptor"; "cImGui_ImDrawData" ] /\
  length typedefs = 5 /\
  NoDup (map fst typedefs) /\
  length functions = 6 /\
  length (declarations cimgui_impl_metal_h) = 5 + 6.
Proof.
  repeat split; try reflexivity.
  change (map fst typedefs) with handle_typedef_names.
  unfold handle_typedef_names.
  repeat (constructor; [simpl; intuition discriminate|]).
  constructor.
Qed.

(** C9. The five handle typedefs all alias [void*], so the types do not
    tell handle kinds apart: any two handle types are compatible, and a
    call of any of the six functions type-checks with arguments of any
    handle kinds, as long as their number is right. *)
Theorem C9_handle_kinds_interchangeable :
  forall (f : signature) (ks : list handle_kind),
    In f functions ->
    length ks = length (sig_params f) ->
    map handle_type all_handle_kinds = map Tnamed (map fst typedefs) /\
    (forall k, lookup_typedef typedefs
                 (match handle_type k with Tnamed n => n | _ => "" end)
               = Some (Tptr Tvoid)) /\
    (forall k, canonical (handle_type k) = Tptr Tvoid) /\
    (forall k1 k2, compatible (handle_type k1) (handle_type k2) = true) /\
    call_typechecks f (map handle_type ks) = true.
Proof.
  intros f ks Hf Hlen.
  split; [reflexivity|].
  split; [intros []; reflexivity|].
  split; [intros []; reflexivity|].
  split; [intros [] []; reflexivity|].
  simpl in Hf.
  repeat (destruct Hf as [<- | Hf]);
    try contradiction;
    simpl in Hlen;
    repeat (destruct ks as [|[] ks]; simpl in Hlen; try discriminate Hlen);
    reflexivity.
Qed.

(** A command-buffer handle type-checks as the device argument of Init. *)
Lemma C9_handle_kinds_interchangeable_witness :
  call_typechecks (mkSig "cImGui_ImplMetal_Init" Tbool [Tnamed "cImGui_MTLDevice"])
                  [handle_type CommandBuffer] = true.
Proof.
  apply (C9_handle_kinds_interchangeable
           (mkSig "cImGui_ImplMetal_Init" Tbool [Tnamed "cImGui_MTLDevice"])
           [CommandBuffer]).
  - simpl. left. reflexivity.
  - reflexivity.
Defined.

(** ** The claims on behaviour *)

(** C4. In every legal call sequence: a frame operation (NewFrame,
    RenderDrawData) comes after an Init that no Shutdown has undone; the
    GUI library's frame-start call comes after the NewFrame of that frame;
    RenderDrawData comes after the GUI library's render call of that
    frame; Shutdown comes only when every frame begun is complete, and
    only after an Init with no other Shutdown in between (so never before
    Init and never twice without an intervening Init). *)
Theorem C4_call_order (pre post : list event) (e : event) :
  legal (pre ++ e :: post) = true ->
  (is_frame_operation e = true -> initialized_by pre) /\
  (is_imgui_new_frame e = true -> directly_after is_new_frame pre) /\
  (is_render_draw_data e = true -> directly_after is_imgui_render pre) /\
  (is_shutdown e = true -> frames_complete pre /\ initialized_by pre).
Proof.
  intros Hlegal.
  destruct (legal_split pre post e Hlegal) as (q & q' & Hq & Hstep).
  destruct (history pre q Hq) as (I1 & I2 & I3 & I4 & I5).
  step_cases e q Hstep;
    (split; [|split; [|split]]); intros He; try discriminate He;
    try split;
    first [ apply I1; discriminate
          | apply I2; reflexivity
          | apply I3; reflexivity
          | apply I4; reflexivity ].
Qed.

Lemma C4_call_order_witness :
  legal example_session = true /\
  directly_after is_imgui_render (firstn 4 example_session) /\
  frames_complete (firstn 5 example_session).
Proof.
  split; [reflexivity|]. split.
  - apply (C4_call_order (firstn 4 example_session) (skipn 5 example_session)
             (Shim (Call_RenderDrawData 12288%Z 16384%Z 20480%Z)));
      reflexivity.
  - apply (C4_call_order (firstn 5 example_session) [] (Shim Call_Shutdown));
      reflexivity.
Defined.

(** The protocol rejects what the claim forbids. *)
Example shutdown_before_init_illegal : legal [Shim Call_Shutdown] = false.
Proof. reflexivity. Qed.

Example double_shutdown_illegal :
  legal [Shim (Call_Init 1%Z); Shim Call_Shutdown; Shim Call_Shutdown] = false.
Proof. reflexivity. Qed.

Example frame_before_init_illegal : legal [Shim (Call_NewFrame 1%Z)] = false.
Proof. reflexivity. Qed.

Example shutdown_inside_frame_illegal :
  legal [Shim (Call_Init 1%Z); Shim (Call_NewFrame 2%Z); Shim Call_Shutdown] = false.
Proof. reflexivity. Qed.

Example reinit_after_shutdown_legal :
  legal [Shim (Call_Init 1%Z); Shim Call_Shutdown; Shim (Call_Init 2%Z); Shim Call_Shutdown]
  = true.
Proof. reflexivity. Qed.

(** C7. Each of the six functions is a pass-through: what a caller
    observes of a call, and of any sequence of calls, is what the
    corresponding backend calls give on the same arguments with every
    handle translated to its native type at the same address; the wrapped
    library receives exactly one request per call and nothing else. *)
Theorem C7_pass_through :
  forall (World : Type) (B : backend World),
    (forall d w, cImGui_ImplMetal_Init B d w = Backend_Init B (bridge_cast MTLDevice d) w) /\
    (forall w, cImGui_ImplMetal_Shutdown B w = Backend_Shutdown B w) /\
    (forall r w, cImGui_ImplMetal_NewFrame B r w
                 = Backend_NewFrame B (bridge_cast MTLRenderPassDescriptor r) w) /\
    (forall dd cb ce w,
        cImGui_ImplMetal_RenderDrawData B dd cb ce w
        = Backend_RenderDrawData B (bridge_cast ImDrawData dd)
            (bridge_cast MTLCommandBuffer cb)
            (bridge_cast MTLRenderCommandEncoder ce) w) /\
    (forall d w, cImGui_ImplMetal_CreateDeviceObjects B d w
                 = Backend_CreateDeviceObjects B (bridge_cast MTLDevice d) w) /\
    (forall w, cImGui_ImplMetal_DestroyDeviceObjects B w = Backend_DestroyDeviceObjects B w) /\
    (forall cs w, run_shim B cs w = run_backend B (map corresponding cs) w) /\
    (forall c, backend_pointers (corresponding c) = call_handles c) /\
    (forall answer cs log w,
        snd (run_shim (recording_backend World answer) cs (log, w))
        = (log ++ map (fun c => (corresponding c, w)) cs, w)).
Proof.
  intros World B. repeat split.
  - apply run_shim_corresponding.
  - apply pointers_passed_through.
  - intros answer cs log w. apply recorded_run.
Qed.

(** C8. The shim neither inspects nor mutates the object behind a handle:
    at the handle's own type ([void*]) the object cannot be accessed at
    all; with a wrapped library that does nothing, every object of the
    world is as it was after any call, and the result does not depend on
    what the world contains; and what reaches the wrapped library is the
    pointer itself, in the caller's world unchanged. *)
Theorem C8_handles_untouched :
  (forall k, can_access_pointee (handle_type k) = false) /\
  (forall (World Obj : Type) (load : World -> void_ptr -> option Obj)
          (answer : bool) (c : shim_call) (w : World) (h : void_ptr),
      load (snd (exec_shim (inert_backend World answer) c w)) h = load w h) /\
  (forall (World : Type) (answer : bool) (c : shim_call) (w1 w2 : World),
      fst (exec_shim (inert_backend World answer) c w1)
      = fst (exec_shim (inert_backend World answer) c w2)) /\
  (forall (World : Type) (answer : bool) (c : shim_call)
          (log : list (backend_call * World)) (w : World),
      snd (exec_shim (recording_backend World answer) c (log, w))
      = (log ++ [(corresponding c, w)], w) /\
      backend_pointers (corresponding c) = call_handles c).
Proof.
  split; [intros []; reflexivity|].
  split; [intros World Obj load answer c w h; destruct c; reflexivity|].
  split; [intros World answer c w1 w2; destruct c; reflexivity|].
  intros World answer c log w. split.
  - apply recorded_call.
  - apply pointers_passed_through.
Qed.

(** ** Further properties of the header *)








(** Including the header twice in a row declares what one inclusion
    declares. *)
Example double_inclusion :
  elaborate_unit true false 0 []
    [Include_cimgui_impl_metal_h; Include_cimgui_impl_metal_h]
  = elaborate true cimgui_impl_metal_h.
Proof. reflexivity. Qed.

(** An inclusion in a disabled region is not opened, so it does not
    count as the first one. *)
Example disabled_inclusion_not_counted :
  elaborate_unit true false 0 []
    [Own (Ifdef "UNDEFINED"); Include_cimgui_impl_metal_h; Own Endif;
     Include_cimgui_impl_metal_h]
  = elaborate true cimgui_impl_metal_h.
Proof. reflexivity. Qed.


(** An unbalanced header would leak its nesting into the includer. *)
Example unbalanced_header_leaks :
  elaborate_from true 0 []
    ([Ifdef "UNDEFINED"] ++ [Decl (Function Tvoid "after" [])]) = [].
Proof. reflexivity. Qed.

(** The header is self-contained: as the first thing of a translation
    unit, in C and in C++, with nothing declared and nothing included
    before, every type a declaration of the header writes is known at
    that line (the handle typedefs precede the prototypes that use them
    and [stdbool.h] precedes the first [bool]); and the lines that follow
    the inclusion see [bool] and the five handle names. *)
Theorem header_self_contained (cplusplus : bool) (rest : list line) :
  in_scope_from cplusplus 0 false [] cimgui_impl_metal_h = true /\
  in_scope_from cplusplus 0 false [] (cimgui_impl_metal_h ++ rest)
  = in_scope_from cplusplus 0 true (rev handle_typedef_names) rest.
Proof. destruct cplusplus; split; reflexivity. Qed.

(** Without its include line the header would depend on the includer in
    C, and a prototype moved above the typedefs would be out of scope. *)
Example include_line_needed :
  in_scope_from false 0 false []
    (filter (fun l => match l with Include _ => false | _ => true end)
            cimgui_impl_metal_h) = false.
Proof. reflexivity. Qed.

Example typedef_must_precede_use :
  in_scope_from true 0 true []
    [ Decl (Function Tbool "cImGui_ImplMetal_Init"
              [mkParam (Tnamed "cImGui_MTLDevice") "device"]);
      Decl (Typedef (Tptr Tvoid) "cImGui_MTLDevice") ] = false.
Proof. reflexivity. Qed.

Lemma args_accepted_length (args params : list ctype) :
  args_accepted args params = true -> length args = length params.
Proof.
  revert params. induction args as [|a args IH]; intros [|p params] H;
    simpl in H; try discriminate; try reflexivity.
  apply andb_true_iff in H. destruct H as [_ H].
  simpl. f_equal. now apply IH.
Qed.

Lemma canonical_handle_type (k : handle_kind) :
  canonical (handle_type k) = Tptr Tvoid.
Proof. destruct k; reflexivity. Qed.

Lemma args_accepted_handles (ks : list handle_kind) (params : list ctype) :
  Forall (fun t => canonical t = Tptr Tvoid) params ->
  length ks = length params ->
  args_accepted (map handle_type ks) params = true.
Proof.
  revert params. induction ks as [|k ks IH]; intros [|p params] Hp Hlen;
    simpl in Hlen; try discriminate; try reflexivity.
  inversion Hp as [|? ? Hc Hrest]; subst. simpl.
  apply andb_true_iff. split.
  - unfold compatible. rewrite canonical_handle_type, Hc.
    destruct (ctype_eq_dec (Tptr Tvoid) (Tptr Tvoid)); congruence.
  - apply IH; [assumption | now injection Hlen].
Qed.

Lemma parameters_are_void_pointers (f : signature) :
  In f functions -> Forall (fun t => canonical t = Tptr Tvoid) (sig_params f).
Proof.
  intros Hf. simpl in Hf.
  repeat (destruct Hf as [<- | Hf]); try contradiction;
    repeat constructor.
Qed.

(** A call of one of the six functions with handle arguments is accepted
    exactly when the number of arguments is the number of parameters of
    the prototype: the arity is the only thing the types check.  So the
    two prototypes written with [(void)] accept no argument at all. *)
Theorem call_accepted_iff_arity (f : signature) (ks : list handle_kind) :
  In f functions ->
  (call_typechecks f (map handle_type ks) = true
   <-> length ks = length (sig_params f)).
Proof.
  intros Hf. unfold call_typechecks. split.
  - intros H. apply args_accepted_length in H. now rewrite length_map in H.
  - intros Hlen. apply args_accepted_handles; [|assumption].
    now apply parameters_are_void_pointers.
Qed.

Lemma call_accepted_iff_arity_witness :
  call_typechecks
    (mkSig "cImGui_ImplMetal_NewFrame" Tvoid [Tnamed "cImGui_MTLRenderPassDescriptor"])
    (map handle_type [DrawData]) = true.
Proof.
  apply (call_accepted_iff_arity
           (mkSig "cImGui_ImplMetal_NewFrame" Tvoid
              [Tnamed "cImGui_MTLRenderPassDescriptor"]) [DrawData]).
  - simpl. do 2 right. left. reflexivity.
  - reflexivity.
Defined.

(** Shutdown is declared [(void)]: a call that passes it a handle is
    rejected; so is RenderDrawData with two handles instead of three. *)
Example shutdown_takes_no_argument :
  call_typechecks (mkSig "cImGui_ImplMetal_Shutdown" Tvoid []) [handle_type Device] = false /\
  find_function functions "cImGui_ImplMetal_Shutdown"
  = Some (mkSig "cImGui_ImplMetal_Shutdown" Tvoid []).
Proof. split; reflexivity. Qed.

(** Every type written in a prototype resolves to a built-in type
    ([void], [bool] or [void*]) as soon as the resolution is given one
    step, and more steps change nothing: every typedef of the header
    aliases a built-in type directly, none aliases another typedef or is
    left dangling, so the fuel of [canonical] is never exhausted. *)
Theorem signature_types_resolve (fuel : nat) (f : signature) (t : ctype) :
  1 <= fuel ->
  In f functions ->
  In t (signature_types f) ->
  resolve fuel typedefs t = canonical t /\
  In (canonical t) [Tvoid; Tbool; Tptr Tvoid].
Proof.
  intros Hfuel Hf Ht.
  destruct fuel as [|k]; try lia.
  simpl in Hf.
  repeat (destruct Hf as [<- | Hf]); try contradiction;
    simpl in Ht;
    repeat (destruct Ht as [<- | Ht]); try contradiction;
    (split; [destruct k as [|[|k]]; reflexivity | simpl; auto]).
Qed.

Lemma signature_types_resolve_witness :
  resolve 1 typedefs (Tnamed "cImGui_ImDrawData") = canonical (Tnamed "cImGui_ImDrawData").
Proof.
  apply (signature_types_resolve 1
           (mkSig "cImGui_ImplMetal_RenderDrawData" Tvoid
              [Tnamed "cImGui_ImDrawData"; Tnamed "cImGui_MTLCommandBuffer";
               Tnamed "cImGui_MTLRenderCommandEncoder"])
           (Tnamed "cImGui_ImDrawData")).
  - lia.
  - simpl. do 3 right. left. reflexivity.
  - simpl. right. left. reflexivity.
Defined.

(** With no step at all a handle type stays unresolved: the bound is
    tight. *)
Example no_step_resolution_incomplete :
  resolve 0 typedefs (Tnamed "cImGui_MTLDevice") <> canonical (Tnamed "cImGui_MTLDevice").
Proof. discriminate. Qed.
